(** * The conversation context manager of [src/chatbot/model.py]

    The class [AIChat] keeps the encoded dialogue in [self.chat_history_ids]
    and mediates every call to the tokenizer and to the language model.  The
    tokenizer and the model are external objects: they are a record of
    functions here, the object is a record of its two data attributes, and
    the methods run in a small state-and-exception monad that also keeps the
    list of the external calls made. *)

From Stdlib Require Import ZArith List String Ascii Bool Lia Floats.
Import ListNotations.

Set Warnings "-inexact-float".
Open Scope Z_scope.

(** ** Python and torch sequences *)

Module Py.

(** [len(x)], and [x.shape[1]] of a tensor with one row. *)
Definition len {A : Type} (l : list A) : Z := Z.of_nat (List.length l).

(** [x[start:]]: a negative [start] counts from the end, and both ends are
    clamped to the sequence.  [x[-0:]] is [x[0:]], the whole sequence. *)
Definition slice_from {A : Type} (start : Z) (l : list A) : list A :=
  let n := len l in
  let lo := if start <? 0 then Z.max (start + n) 0 else Z.min start n in
  skipn (Z.to_nat lo) l.

(** The line feed of the f-string's [\n]. *)
Definition newline : string := String (ascii_of_nat 10) EmptyString.

End Py.

(** The last [k] elements of a sequence (all of it when it has fewer). *)
Definition last_tokens {A : Type} (k : nat) (l : list A) : list A :=
  skipn (List.length l - k) l.

(** ** Data *)

Definition token : Type := Z.

(** A tensor of token ids of shape [1, n]: its single row. *)
Definition tensor : Type := list token.

(** The keyword arguments of [model.generate] (lines 70-84). *)
Record generate_kwargs : Type := {
  max_length : Z;
  pad_token_id : token;
  no_repeat_ngram_size : Z;
  do_sample : bool;
  top_k : Z;
  top_p : float;
  temperature : float;
  min_length : Z;
  repetition_penalty : float;
  length_penalty : float;
  early_stopping : bool;
  num_return_sequences : Z
}.

(** What a call does: it returns a value or raises an exception. *)
Inductive outcome (E A : Type) : Type :=
| Returned (a : A)
| Raised (e : E).

Arguments Returned {E A} a.
Arguments Raised {E A} e.

(** The tokenizer and the model of the [transformers] library.  [Rng] is the
    state of torch's random generator: [generate] samples ([do_sample=True]),
    so it reads and advances it. *)
Record Transformers : Type := {
  Exn : Type;
  Rng : Type;
  encode : string -> bool -> tensor;
  decode : tensor -> bool -> string;
  eos_token_id : token;
  generate : tensor -> generate_kwargs -> Rng -> outcome Exn tensor * Rng
}.

(** An external call, as the object makes it. *)
Inductive call : Type :=
| Call_encode (text : string) (add_special_tokens : bool)
| Call_generate (inputs : tensor) (kwargs : generate_kwargs)
| Call_decode (ids : tensor) (skip_special_tokens : bool).

(** The data attributes of an [AIChat] object; [None] is Python's [None]. *)
Record AIChat : Type := {
  chat_history_ids : option tensor;
  max_history_tokens : Z
}.

(** ** The methods *)

Section Chatbot.

Context (T : Transformers).

(** The object, the random generator and the external calls made so far. *)
Record world : Type := {
  self : AIChat;
  torch_rng : Rng T;
  calls : list call
}.

Definition py (A : Type) : Type := world -> outcome (Exn T) A * world.

Definition ret {A : Type} (a : A) : py A := fun w => (Returned a, w).

Definition bind {A B : Type} (m : py A) (k : A -> py B) : py B :=
  fun w =>
    match m w with
    | (Returned a, w') => k a w'
    | (Raised e, w') => (Raised e, w')
    end.

Notation "x <- m ;; k" := (bind m (fun x => k))
  (at level 61, m at next level, right associativity).
Notation "m ;; k" := (bind m (fun _ => k))
  (at level 61, right associativity).

(** [self.attr] *)
Definition getattr {A : Type} (attr : AIChat -> A) : py A :=
  fun w => (Returned (attr (self w)), w).

(** [self.chat_history_ids = v] *)
Definition set_chat_history_ids (v : option tensor) : py unit :=
  fun w =>
    (Returned tt,
     {| self := {| chat_history_ids := v;
                   max_history_tokens := max_history_tokens (self w) |};
        torch_rng := torch_rng w;
        calls := calls w |}).

Definition record_call (c : call) (w : world) : world :=
  {| self := self w; torch_rng := torch_rng w; calls := calls w ++ [c] |}.

(** [self.tokenizer.encode(text, return_tensors='pt', add_special_tokens=...)] *)
Definition tokenizer_encode (text : string) (add_special_tokens : bool) : py tensor :=
  fun w =>
    (Returned (encode T text add_special_tokens),
     record_call (Call_encode text add_special_tokens) w).

(** [self.tokenizer.decode(ids, skip_special_tokens=...)] *)
Definition tokenizer_decode (ids : tensor) (skip_special_tokens : bool) : py string :=
  fun w =>
    (Returned (decode T ids skip_special_tokens),
     record_call (Call_decode ids skip_special_tokens) w).

(** [self.model.generate(inputs, **kwargs)] *)
Definition model_generate (inputs : tensor) (kwargs : generate_kwargs) : py tensor :=
  fun w =>
    let (r, g) := generate T inputs kwargs (torch_rng w) in
    (r, {| self := self w; torch_rng := g;
           calls := calls w ++ [Call_generate inputs kwargs] |}).

(** Lines 35-36 of [__init__]. *)
Definition init : AIChat :=
  {| chat_history_ids := None; max_history_tokens := 1024 |}.

(** [generate_response(self, user_input, max_length=1000)], lines 38-92.
    An omitted [max_length] is [None].  [torch.cat] on line 66 reads the
    attribute that line 65 has just assigned: that value is [history] here. *)
Definition generate_response (user_input : string) (max_length : option Z) : py string :=
  let max_length := match max_length with Some n => n | None => 1000 end in
  let formatted_input :=
    ("User: " ++ user_input ++ Py.newline ++ "Assistant:")%string in
  inputs <- tokenizer_encode formatted_input true ;;
  history <- getattr chat_history_ids ;;
  inputs <-
    match history with
    | Some history =>
        limit <- getattr max_history_tokens ;;
        let combined_length := Py.len history + Py.len inputs in
        history <-
          (if combined_length >? limit then
             let history_to_keep := limit - Py.len inputs in
             let history := Py.slice_from (- history_to_keep) history in
             set_chat_history_ids (Some history) ;;
             ret history
           else ret history) ;;
        ret (history ++ inputs)
    | None => ret inputs
    end ;;
  result <-
    model_generate inputs
      {| max_length := max_length;
         pad_token_id := eos_token_id T;
         no_repeat_ngram_size := 2;
         do_sample := true;
         top_k := 50;
         top_p := 0.92;
         temperature := 0.85;
         min_length := 10;
         repetition_penalty := 1.2;
         length_penalty := 1.0;
         early_stopping := true;
         num_return_sequences := 1 |} ;;
  set_chat_history_ids (Some result) ;;
  response <- tokenizer_decode (Py.slice_from (Py.len inputs) result) true ;;
  ret response.

(** [reset_chat(self)], lines 94-99. *)
Definition reset_chat : py unit := set_chat_history_ids None.

(** A caller making one [generate_response] call after the other; an
    exception ends the sequence, as it ends the caller. *)
Fixpoint respond_all (turns : list (string * option Z)) : py (list string) :=
  match turns with
  | [] => ret []
  | (user_input, max_length) :: rest =>
      reply <- generate_response user_input max_length ;;
      replies <- respond_all rest ;;
      ret (reply :: replies)
  end.

(** A newly constructed object, before any external call. *)
Definition fresh (g : Rng T) : world :=
  {| self := init; torch_rng := g; calls := [] |}.

End Chatbot.

Arguments self {T} w.
Arguments torch_rng {T} w.
Arguments calls {T} w.

(** ** What one call computes

    The values [generate_response] passes on, as functions of the object
    and of the user's text; [generate_response_run] below shows that the
    method computes them. *)

Section Derived.

Context (T : Transformers).

(** Line 51: the text that is encoded. *)
Definition prompt (user_input : string) : string :=
  ("User: " ++ user_input ++ Py.newline ++ "Assistant:")%string.

(** Lines 54-56: the encoded new input. *)
Definition new_input (user_input : string) : tensor :=
  encode T (prompt user_input) true.

(** Lines 61-65: the history that is concatenated with the new input. *)
Definition kept_history (limit : Z) (history inputs : tensor) : tensor :=
  if Py.len history + Py.len inputs >? limit
  then Py.slice_from (- (limit - Py.len inputs)) history
  else history.

(** The value of [self.chat_history_ids] when [model.generate] is called. *)
Definition history_at_generate (a : AIChat) (user_input : string) : option tensor :=
  match chat_history_ids a with
  | Some history =>
      Some (kept_history (max_history_tokens a) history (new_input user_input))
  | None => None
  end.

(** Line 66: the tensor passed to [model.generate]. *)
Definition model_input (a : AIChat) (user_input : string) : tensor :=
  match history_at_generate a user_input with
  | Some history => history ++ new_input user_input
  | None => new_input user_input
  end.

(** Lines 72-83: the keyword arguments passed to [model.generate]. *)
Definition kwargs (max_length : option Z) : generate_kwargs :=
  {| max_length := match max_length with Some n => n | None => 1000 end;
     pad_token_id := eos_token_id T;
     no_repeat_ngram_size := 2;
     do_sample := true;
     top_k := 50;
     top_p := 0.92;
     temperature := 0.85;
     min_length := 10;
     repetition_penalty := 1.2;
     length_penalty := 1.0;
     early_stopping := true;
     num_return_sequences := 1 |}.

(** The object with another history. *)
Definition with_history (a : AIChat) (v : option tensor) : AIChat :=
  {| chat_history_ids := v; max_history_tokens := max_history_tokens a |}.

(** The world a call of [generate_response] leaves when [model.generate]
    raises, and when it returns [result]. *)
Definition world_after_failure (w : world T) (user_input : string)
    (max_length : option Z) (g : Rng T) : world T :=
  {| self := with_history (self w) (history_at_generate (self w) user_input);
     torch_rng := g;
     calls := calls w ++ [Call_encode (prompt user_input) true;
                          Call_generate (model_input (self w) user_input)
                                        (kwargs max_length)] |}.

Definition world_after_success (w : world T) (user_input : string)
    (max_length : option Z) (g : Rng T) (result : tensor) : world T :=
  {| self := with_history (self w) (Some result);
     torch_rng := g;
     calls := calls w ++ [Call_encode (prompt user_input) true;
                          Call_generate (model_input (self w) user_input)
                                        (kwargs max_length);
                          Call_decode
                            (skipn (List.length (model_input (self w) user_input)) result)
                            true] |}.

(** The two promises of the generation capability the claims rely on: the
    result starts with the input, and [max_length] bounds the whole result
    unless the input alone is longer. *)
Definition echoes_input : Prop :=
  forall inputs kw g result g',
    generate T inputs kw g = (Returned result, g') ->
    exists continuation, result = inputs ++ continuation.

Definition honours_max_length : Prop :=
  forall inputs kw g result g',
    generate T inputs kw g = (Returned result, g') ->
    Py.len result <= Z.max (max_length kw) (Py.len inputs).

(** Every tensor passed to [model.generate] so far has at most
    [limit] tokens. *)
Definition inputs_within (limit : Z) (w : world T) : Prop :=
  forall inputs kw, In (Call_generate inputs kw) (calls w) -> Py.len inputs <= limit.

(** The stored history, if any, has at most [limit] tokens. *)
Definition stored_within (limit : Z) (w : world T) : Prop :=
  forall stored, chat_history_ids (self w) = Some stored -> Py.len stored <= limit.

(** [n] calls of [reset_chat] in a row. *)
Fixpoint reset_times (n : nat) (w : world T) : world T :=
  match n with
  | O => w
  | S n' => reset_times n' (snd (reset_chat T w))
  end.

End Derived.

(** ** A concrete tokenizer and model

    One token per character (its code), and a sampler whose random state is
    the list of the draws still to come. *)

Module Demo.

Definition char_encode (text : string) (add_special_tokens : bool) : tensor :=
  map (fun c => Z.of_nat (nat_of_ascii c)) (list_ascii_of_string text).

Definition end_marker : token := 0.

Definition char_decode (ids : tensor) (skip_special_tokens : bool) : string :=
  string_of_list_ascii
    (map (fun t => ascii_of_nat (Z.to_nat t))
         (if skip_special_tokens
          then filter (fun t => negb (t =? end_marker)) ids
          else ids)).

(** One draw of the sampler: the tokens it would emit before the end
    marker, or a failure of the device. *)
Inductive draw : Type :=
| Sample (continuation : tensor)
| Fault (message : string).

(** The result echoes the input and stops at [max_length] tokens in all,
    after at least [min_new] new tokens. *)
Definition scripted_generate (min_new : nat) (inputs : tensor) (kw : generate_kwargs)
    (g : list draw) : outcome string tensor * list draw :=
  match g with
  | Sample continuation :: g' =>
      let room := Z.to_nat (max_length kw - Py.len inputs) in
      (Returned (inputs ++ firstn (Nat.max min_new room) continuation), g')
  | Fault message :: g' => (Raised message, g')
  | [] => (Raised "RuntimeError"%string, [])
  end.

Definition transformers (min_new : nat) : Transformers :=
  {| Exn := string;
     Rng := list draw;
     encode := char_encode;
     decode := char_decode;
     eos_token_id := end_marker;
     generate := scripted_generate min_new |}.

(** A text of [n] letters. *)
Fixpoint letters (n : nat) : string :=
  match n with
  | O => EmptyString
  | S n' => String "a"%char (letters n')
  end.

End Demo.

(** ** Conversations with the concrete model *)

Module Runs.

Import Demo.

(** The sampler that draws at least one token, and the one that stops at
    [max_length] whatever it is given. *)
Definition legacy : Transformers := transformers 1.
Definition strict : Transformers := transformers 0.

(** A long first message, then a short one. *)
Definition long_then_short : list (string * option Z) :=
  [(letters 990, None); ("Hi"%string, None)].

Definition two_samples : list draw := [Sample [33]; Sample [33]].

(** The world after a first message ["Hello"] and its one-token reply. *)
Definition after_hello : world legacy :=
  snd (generate_response legacy "Hello" None (fresh legacy two_samples)).

(** The world after a first message of 990 letters; the next call of
    [model.generate] will fail. *)
Definition after_long_message : world legacy :=
  snd (generate_response legacy (letters 990) None
         (fresh legacy [Sample [33]; Fault "CUDA out of memory"])).

(** The same first message when both calls of [model.generate] return,
    and the world after the second message ["Hi"]. *)
Definition after_long_reply : world legacy :=
  snd (generate_response legacy (letters 990) None (fresh legacy two_samples)).

Definition after_long_and_hi : world legacy :=
  snd (generate_response legacy "Hi" None after_long_reply).

(** What is stored after that first message: its encoding and one token. *)
Definition long_history : tensor := new_input legacy (letters 990) ++ [33].

Definition hello_history : tensor := new_input legacy "Hello" ++ [33].

End Runs.

(** ** A caller that goes on after an exception

    The object outlives a call that raised: the next call finds it as the
    failed one left it. *)

Section Serving.

Context (T : Transformers).

(** One method call on the object. *)
Inductive request : Type :=
| Respond (user_input : string) (max_length : option Z)
| Reset.

(** The world after the call, whether it returned or raised. *)
Definition serve (r : request) (w : world T) : world T :=
  match r with
  | Respond user_input max_length =>
      snd (generate_response T user_input max_length w)
  | Reset => snd (reset_chat T w)
  end.

Fixpoint serve_all (requests : list request) (w : world T) : world T :=
  match requests with
  | [] => w
  | r :: rest => serve_all rest (serve r w)
  end.

(** The tokens of the conversation that the external calls show, in their
    order: every text as it was encoded, every continuation as it was
    passed to [decode]. *)
Definition conversation_tokens (cs : list call) : tensor :=
  flat_map
    (fun c =>
       match c with
       | Call_encode text add_special_tokens => encode T text add_special_tokens
       | Call_generate _ _ => []
       | Call_decode ids _ => ids
       end)
    cs.

(** The requests whose encoded new input is shorter than [limit]. *)
Definition short_request (limit : Z) (r : request) : Prop :=
  match r with
  | Respond user_input _ => Py.len (new_input T user_input) < limit
  | Reset => True
  end.

(** The stored history against the tokens of the conversation so far: it
    is that stream without some of its first tokens, and the whole stream
    when the stream has at most [limit] tokens. *)
Definition recent_conversation (limit : Z) (w : world T) : Prop :=
  match chat_history_ids (self w) with
  | Some stored =>
      exists n,
        (n <= List.length (conversation_tokens (calls w)))%nat /\
        stored = skipn n (conversation_tokens (calls w)) /\
        (Py.len (conversation_tokens (calls w)) <= limit ->
         stored = conversation_tokens (calls w))
  | None => conversation_tokens (calls w) = []
  end.

End Serving.

(** ** The page of [src/chatbot/app.py]

    Streamlit runs the script from top to bottom at every interaction; what
    outlives a run is [st.session_state].  One run is a computation on the
    session state, the outside of the chatbot (random generator, external
    calls) and the chat messages written on the page.  The static parts of
    the page (configuration, style sheet, header, side bar labels) write
    nothing of that and are left out. *)

(** A chat message: the dict [{"role": ..., "content": ...}]. *)
Record message : Type := {
  role : string;
  content : string
}.

(** [st.session_state]: each key is present or not. *)
Record session_state : Type := {
  chatbot : option AIChat;
  messages : option (list message)
}.

Section Page.

Context (T : Transformers).

(** What one run is given: the values of the widgets, and what loading the
    tokenizer and the model raises, if anything, should [AIChat()] be
    called. *)
Record visit : Type := {
  response_creativity : float;
  maximum_response_length : Z;
  select_theme : string;
  chat_input : option string;
  reset_chat_button : bool;
  from_pretrained : option (Exn T)
}.

(** What a run can raise: an exception of the library, or the
    [AttributeError] of a key that [st.session_state] does not have. *)
Inductive script_exn : Type :=
| Model_exn (e : Exn T)
| AttributeError (key : string).

Record browser_session : Type := {
  session : session_state;
  generator : Rng T;
  made : list call;
  page : list message
}.

Definition script (A : Type) : Type :=
  browser_session -> outcome script_exn A * browser_session.

Definition script_ret {A : Type} (a : A) : script A := fun s => (Returned a, s).

Definition script_raise {A : Type} (e : script_exn) : script A :=
  fun s => (Raised e, s).

Definition script_bind {A B : Type} (m : script A) (k : A -> script B) : script B :=
  fun s =>
    match m s with
    | (Returned a, s') => k a s'
    | (Raised e, s') => (Raised e, s')
    end.

Notation "x <- m ;; k" := (script_bind m (fun x => k))
  (at level 61, m at next level, right associativity).
Notation "m ;; k" := (script_bind m (fun _ => k))
  (at level 61, right associativity).

(** [key in st.session_state] *)
Definition session_has {A : Type} (key : session_state -> option A) : script bool :=
  fun s =>
    (Returned (match key (session s) with Some _ => true | None => false end), s).

(** [st.session_state.chatbot = bot] and [st.session_state.messages = ms] *)
Definition set_chatbot (bot : AIChat) : script unit :=
  fun s =>
    (Returned tt,
     {| session := {| chatbot := Some bot; messages := messages (session s) |};
        generator := generator s; made := made s; page := page s |}).

Definition set_messages (ms : list message) : script unit :=
  fun s =>
    (Returned tt,
     {| session := {| chatbot := chatbot (session s); messages := Some ms |};
        generator := generator s; made := made s; page := page s |}).

(** [st.session_state.messages] *)
Definition session_messages : script (list message) :=
  fun s =>
    match messages (session s) with
    | Some ms => (Returned ms, s)
    | None => (Raised (AttributeError "messages"), s)
    end.

(** [st.session_state.messages.append(m)] *)
Definition messages_append (m : message) : script unit :=
  ms <- session_messages ;;
  set_messages (ms ++ [m]).

(** A method call on [st.session_state.chatbot]: the object is changed in
    place, whether the method returns or raises. *)
Definition chatbot_call {A : Type} (method : py T A) : script A :=
  fun s =>
    match chatbot (session s) with
    | Some bot =>
        let (r, w) :=
          method {| self := bot; torch_rng := generator s; calls := made s |} in
        (match r with
         | Returned a => Returned a
         | Raised e => Raised (Model_exn e)
         end,
         {| session := {| chatbot := Some (self w);
                          messages := messages (session s) |};
            generator := torch_rng w; made := calls w; page := page s |})
    | None => (Raised (AttributeError "chatbot"), s)
    end.

(** [with st.chat_message(role): st.write(text)] *)
Definition chat_message_write (role : string) (text : string) : script unit :=
  fun s =>
    (Returned tt,
     {| session := session s; generator := generator s; made := made s;
        page := page s ++ [{| role := role; content := text |}] |}).

(** [AIChat()]: the construction raises what loading raises.  The calls
    that load the tokenizer and the model (model.py, lines 23-31) are not
    among the calls that [made] records. *)
Definition new_AIChat (loading : option (Exn T)) : script AIChat :=
  match loading with
  | Some e => script_raise (Model_exn e)
  | None => script_ret init
  end.

(** [for x in xs: body(x)] *)
Fixpoint for_each {A : Type} (xs : list A) (body : A -> script unit) : script unit :=
  match xs with
  | [] => script_ret tt
  | x :: rest => body x ;; for_each rest body
  end.

(** [initialize_session_state()], lines 54-62. *)
Definition initialize_session_state (loading : option (Exn T)) : script unit :=
  has_chatbot <- session_has chatbot ;;
  (if has_chatbot then script_ret tt
   else bot <- new_AIChat loading ;; set_chatbot bot) ;;
  has_messages <- session_has messages ;;
  (if has_messages then script_ret tt else set_messages []).

(** Python's truth value of a string. *)
Definition truthy (text : string) : bool :=
  match text with
  | EmptyString => false
  | String _ _ => true
  end.

(** [main()], lines 64-123.  The result says whether
    [st.experimental_rerun()] was reached. *)
Definition main (v : visit) : script bool :=
  initialize_session_state (from_pretrained v) ;;
  let temperature := response_creativity v in
  let max_length := maximum_response_length v in
  let theme := select_theme v in
  shown <- session_messages ;;
  for_each shown (fun m => chat_message_write (role m) (content m)) ;;
  (match chat_input v with
   | Some prompt =>
       if truthy prompt then
         messages_append {| role := "user"; content := prompt |} ;;
         chat_message_write "user" prompt ;;
         response <- chatbot_call (generate_response T prompt None) ;;
         chat_message_write "assistant" response ;;
         messages_append {| role := "assistant"; content := response |}
       else script_ret tt
   | None => script_ret tt
   end) ;;
  if reset_chat_button v then
    chatbot_call (reset_chat T) ;;
    set_messages [] ;;
    script_ret true
  else script_ret false.

(** The page is drawn anew at every run. *)
Definition blank_page (s : browser_session) : browser_session :=
  {| session := session s; generator := generator s; made := made s; page := [] |}.

(** One interaction: the script runs on a blank page, and once more,
    with no text submitted and no button pressed, when it asked for a
    rerun. *)
Definition interact (v : visit) (s : browser_session)
    : outcome script_exn bool * browser_session :=
  match main v (blank_page s) with
  | (Returned true, s') =>
      main {| response_creativity := response_creativity v;
              maximum_response_length := maximum_response_length v;
              select_theme := select_theme v;
              chat_input := None;
              reset_chat_button := false;
              from_pretrained := from_pretrained v |}
           (blank_page s')
  | other => other
  end.


(** A browser session before its first run. *)
Definition new_session (g : Rng T) : browser_session :=
  {| session := {| chatbot := None; messages := None |};
     generator := g; made := []; page := [] |}.

(** The transcript of [exchanges]: each text with its reply. *)
Definition transcript (exchanges : list (string * string)) : list message :=
  flat_map
    (fun exchange =>
       [{| role := "user"; content := fst exchange |};
        {| role := "assistant"; content := snd exchange |}])
    exchanges.

(** The text a run acts on, if any. *)
Definition submitted (v : visit) : option string :=
  match chat_input v with
  | Some prompt => if truthy prompt then Some prompt else None
  | None => None
  end.

(** The chatbot and the messages a run works with once
    [initialize_session_state] has returned. *)
Definition chatbot_of (s : browser_session) : AIChat :=
  match chatbot (session s) with Some bot => bot | None => init end.

Definition messages_of (s : browser_session) : list message :=
  match messages (session s) with Some ms => ms | None => [] end.

(** The end of a run, from the reset button on. *)
Definition after_reset_button (v : visit) (s : browser_session)
    : outcome script_exn bool * browser_session :=
  if reset_chat_button v then
    (Returned true,
     {| session := {| chatbot := Some (with_history (chatbot_of s) None);
                      messages := Some [] |};
        generator := generator s; made := made s; page := page s |})
  else (Returned false, s).



End Page.

Arguments Model_exn {T} e.
Arguments AttributeError {T} key.
Arguments session {T} b.
Arguments generator {T} b.
Arguments made {T} b.
Arguments page {T} b.

(** ** Browser sessions with the concrete model *)

Module Visits.

Import Demo Runs.

(** A text submitted, the reset button pressed; the widgets of the side
    bar at their defaults. *)
Definition ask (text : string) : visit legacy :=
  {| response_creativity := 0.7;
     maximum_response_length := 500;
     select_theme := "Dark";
     chat_input := Some text;
     reset_chat_button := false;
     from_pretrained := None |}.

Definition press_reset : visit legacy :=
  {| response_creativity := 0.7;
     maximum_response_length := 500;
     select_theme := "Dark";
     chat_input := None;
     reset_chat_button := true;
     from_pretrained := None |}.

(** After ["Hello"] and its reply. *)
Definition greeted : browser_session legacy :=
  snd (interact legacy (ask "Hello") (new_session legacy two_samples)).

(** After a message of 990 letters and its reply; the next call of
    [model.generate] will fail. *)
Definition before_fault : browser_session legacy :=
  snd (interact legacy (ask (letters 990))
         (new_session legacy [Sample [33]; Fault "CUDA out of memory"])).

Definition after_fault : browser_session legacy :=
  snd (main legacy (ask "Hi") before_fault).


(** A failed call between two that return, and a reset. *)
Definition with_a_fault : list (request) :=
  [Respond (letters 990) None; Respond "Hi" None; Reset; Respond "Hello" None].

Definition faulty_draws : list draw :=
  [Sample [33]; Fault "CUDA out of memory"; Sample [33]].

(** The world after the failed call for ["Hi"]. *)
Definition after_failed_hi : world legacy :=
  snd (generate_response legacy "Hi" None after_long_message).


End Visits.

(** ** Slices *)

Section Slices.

Context {A : Type}.

Lemma len_nonneg (l : list A) : 0 <= Py.len l.
Proof. unfold Py.len. lia. Qed.

Lemma len_app (l1 l2 : list A) : Py.len (l1 ++ l2) = Py.len l1 + Py.len l2.
Proof. unfold Py.len. rewrite length_app. lia. Qed.

Lemma skipn_past_end (n : nat) (l : list A) :
  skipn (Nat.min n (List.length l)) l = skipn n l.
Proof.
  destruct (Nat.le_gt_cases n (List.length l)) as [Hle | Hgt].
  - now rewrite Nat.min_l.
  - rewrite Nat.min_r by lia.
    rewrite skipn_all. symmetry. apply skipn_all2. lia.
Qed.

(** [x[n:]] for [n >= 0] drops the first [n] elements. *)
Lemma slice_from_nonneg (n : Z) (l : list A) :
  0 <= n -> Py.slice_from n l = skipn (Z.to_nat n) l.
Proof.
  intros Hn. unfold Py.slice_from, Py.len.
  destruct (Z.ltb_spec n 0) as [Hneg | _]; [lia |].
  rewrite Z2Nat.inj_min, Nat2Z.id. apply skipn_past_end.
Qed.

(** [x[-0:]] is the whole of [x]. *)
Lemma slice_from_zero (l : list A) : Py.slice_from (- 0) l = l.
Proof. rewrite slice_from_nonneg by lia. reflexivity. Qed.

(** [x[-k:]] for [k > 0] is the last [k] elements. *)
Lemma slice_from_neg (k : Z) (l : list A) :
  0 < k -> Py.slice_from (- k) l = last_tokens (Z.to_nat k) l.
Proof.
  intros Hk. unfold Py.slice_from, last_tokens, Py.len.
  destruct (Z.ltb_spec (- k) 0) as [_ | Hge]; [| lia].
  f_equal. lia.
Qed.

Lemma length_last_tokens (k : nat) (l : list A) :
  List.length (last_tokens k l) = Nat.min k (List.length l).
Proof. unfold last_tokens. rewrite length_skipn. lia. Qed.

Lemma last_tokens_all (k : nat) (l : list A) :
  (List.length l <= k)%nat -> last_tokens k l = l.
Proof.
  intros Hle. unfold last_tokens.
  replace (List.length l - k)%nat with 0%nat by lia. reflexivity.
Qed.

End Slices.

(** ** The run of one call *)

Section Run.

Context (T : Transformers).

(** [generate_response] calls [model.generate] once, on [model_input] with
    [kwargs]; the outcome of that call decides the rest. *)
Lemma generate_response_run (user_input : string) (max_length : option Z)
    (w : world T) :
  generate_response T user_input max_length w =
  match generate T (model_input T (self w) user_input) (kwargs T max_length)
                 (torch_rng w) with
  | (Returned result, g) =>
      (Returned
         (decode T (skipn (List.length (model_input T (self w) user_input)) result) true),
       world_after_success T w user_input max_length g result)
  | (Raised e, g) =>
      (Raised e, world_after_failure T w user_input max_length g)
  end.
Proof.
  destruct w as [[history limit] g cs].
  unfold generate_response, world_after_success, world_after_failure,
    model_input, history_at_generate, kept_history, new_input, with_history.
  fold (prompt user_input). fold (kwargs T max_length).
  unfold bind, tokenizer_encode, tokenizer_decode, model_generate, getattr,
    set_chat_history_ids, ret, record_call.
  cbv beta iota zeta delta [self torch_rng calls chat_history_ids max_history_tokens].
  destruct history as [history |];
    [destruct (Py.len history + Py.len (encode T (prompt user_input) true) >? limit) |];
    cbv beta iota zeta delta [self torch_rng calls chat_history_ids max_history_tokens];
    match goal with
    | |- context [generate T ?i ?k ?r] => destruct (generate T i k r) as [[result | e] g']
    end;
    rewrite <- ?app_assoc; cbn [app];
    rewrite ?slice_from_nonneg by apply len_nonneg;
    unfold Py.len; rewrite ?Nat2Z.id; reflexivity.
Qed.

(** A call that returns has stored the whole result of [model.generate]. *)
Lemma generate_response_returned (user_input : string) (max_length : option Z)
    (w w' : world T) (reply : string) :
  generate_response T user_input max_length w = (Returned reply, w') ->
  exists result,
    generate T (model_input T (self w) user_input) (kwargs T max_length)
             (torch_rng w) = (Returned result, torch_rng w') /\
    reply = decode T (skipn (List.length (model_input T (self w) user_input)) result) true /\
    w' = world_after_success T w user_input max_length (torch_rng w') result.
Proof.
  rewrite generate_response_run.
  destruct (generate T _ _ _) as [[result | e] g]; intros H; inversion H; subst.
  exists result. cbn. auto.
Qed.

(** A call that raises has raised what [model.generate] raised. *)
Lemma generate_response_raised (user_input : string) (max_length : option Z)
    (w w' : world T) (e : Exn T) :
  generate_response T user_input max_length w = (Raised e, w') ->
  generate T (model_input T (self w) user_input) (kwargs T max_length)
           (torch_rng w) = (Raised e, torch_rng w') /\
  w' = world_after_failure T w user_input max_length (torch_rng w').
Proof.
  rewrite generate_response_run.
  destruct (generate T _ _ _) as [[result | e'] g]; intros H; inversion H; subst.
  cbn. auto.
Qed.

(** ** The window *)

(** When the new input is shorter than the limit, the history that is kept
    is the last [limit - len(inputs)] tokens of the prior history, whether
    the trimming branch is taken or not. *)
Lemma kept_history_recent (limit : Z) (history inputs : tensor) :
  Py.len inputs < limit ->
  kept_history limit history inputs =
  last_tokens (Z.to_nat (limit - Py.len inputs)) history.
Proof.
  intros Hshort. unfold kept_history.
  destruct (Z.gtb_spec (Py.len history + Py.len inputs) limit) as [Hover | Hfits].
  - apply slice_from_neg. lia.
  - symmetry. apply last_tokens_all. unfold Py.len in *. lia.
Qed.

Lemma model_input_fits (a : AIChat) (user_input : string) :
  Py.len (new_input T user_input) < max_history_tokens a ->
  Py.len (model_input T a user_input) <= max_history_tokens a.
Proof.
  intros Hshort. unfold model_input, history_at_generate.
  destruct (chat_history_ids a) as [history |]; [| lia].
  rewrite kept_history_recent by assumption.
  rewrite len_app. unfold Py.len at 1. rewrite length_last_tokens.
  unfold Py.len in *. lia.
Qed.

End Run.

(** ** Sequences of calls *)

Section Sessions.

Context (T : Transformers).

Lemma respond_all_cons (user_input : string) (max_length : option Z)
    (rest : list (string * option Z)) (w w' : world T) (replies : list string) :
  respond_all T ((user_input, max_length) :: rest) w = (Returned replies, w') ->
  exists reply w1 replies',
    generate_response T user_input max_length w = (Returned reply, w1) /\
    respond_all T rest w1 = (Returned replies', w') /\
    replies = reply :: replies'.
Proof.
  cbn [respond_all]. unfold bind at 1.
  destruct (generate_response T user_input max_length w) as [[reply | e] w1];
    [| discriminate].
  unfold bind at 1.
  destruct (respond_all T rest w1) as [[replies' | e] w2] eqn:Hrest;
    [| discriminate].
  unfold ret. intros H. inversion H; subst.
  exists reply, w1, replies'. auto.
Qed.

(** The calls before the last one of a successful sequence are a successful
    sequence themselves. *)
Lemma respond_all_prefix (done rest : list (string * option Z)) :
  forall (w w' : world T) (replies : list string),
    respond_all T (done ++ rest) w = (Returned replies, w') ->
    exists replies1 w1, respond_all T done w = (Returned replies1, w1).
Proof.
  induction done as [| [user_input max_length] done IH]; intros w w' replies Hrun.
  - exists [], w. reflexivity.
  - cbn [app] in Hrun.
    apply respond_all_cons in Hrun as (reply & w1 & replies' & Hone & Hrest & _).
    destruct (IH _ _ _ Hrest) as (replies1 & w2 & Hdone).
    exists (reply :: replies1), w2.
    cbn [respond_all]. unfold bind at 1. rewrite Hone.
    unfold bind at 1. rewrite Hdone. reflexivity.
Qed.

Lemma generate_response_window (user_input : string) (requested : option Z)
    (w w' : world T) (reply : string) :
  Py.len (new_input T user_input) < max_history_tokens (self w) ->
  generate_response T user_input requested w = (Returned reply, w') ->
  max_history_tokens (self w') = max_history_tokens (self w) /\
  (inputs_within T (max_history_tokens (self w)) w ->
   inputs_within T (max_history_tokens (self w)) w') /\
  (honours_max_length T ->
   max_length (kwargs T requested) <= max_history_tokens (self w) ->
   stored_within T (max_history_tokens (self w)) w').
Proof.
  intros Hshort Hrun.
  apply generate_response_returned in Hrun as (result & Hgen & _ & ->).
  pose proof (model_input_fits T (self w) user_input Hshort) as Hfits.
  split; [reflexivity | split].
  - intros Hinv inputs kw. cbn [world_after_success calls].
    rewrite in_app_iff. cbn [In].
    intros [Hold | [Henc | [Hcall | [Hdec | []]]]]; try discriminate.
    + eauto.
    + inversion Hcall; subst. exact Hfits.
  - intros Hhonours Hmax stored. cbn. intros Hstored.
    inversion Hstored; subst.
    apply Hhonours in Hgen. lia.
Qed.

Lemma respond_all_window (limit : Z) (done : list (string * option Z)) :
  forall (w w' : world T) (replies : list string),
    max_history_tokens (self w) = limit ->
    Forall (fun turn => Py.len (new_input T (fst turn)) < limit) done ->
    respond_all T done w = (Returned replies, w') ->
    (inputs_within T limit w -> inputs_within T limit w') /\
    (honours_max_length T ->
     Forall (fun turn => max_length (kwargs T (snd turn)) <= limit) done ->
     stored_within T limit w -> stored_within T limit w').
Proof.
  induction done as [| [user_input max_length] done IH];
    intros w w' replies Hlimit Hshort Hrun.
  - cbn in Hrun. inversion Hrun; subst. auto.
  - apply respond_all_cons in Hrun as (reply & w1 & replies' & Hone & Hrest & _).
    inversion Hshort as [| ? ? Hhead Htail]; subst.
    cbn [fst] in Hhead.
    destruct (generate_response_window _ _ _ _ _ Hhead Hone) as (Hsame & Hins & Hst).
    destruct (IH w1 w' replies' Hsame Htail Hrest) as (IHins & IHst).
    split.
    + auto.
    + intros Hhonours Hmax _.
      inversion Hmax as [| ? ? Hhead' Htail']; subst.
      cbn [snd] in Hhead'. auto.
Qed.

(** C1, as the code has it.  In a sequence of [generate_response] calls on
    a new object that all return, where every encoded new input has fewer
    than 1024 tokens, after each call: every tensor passed to
    [model.generate] had at most 1024 tokens; and the stored history, which
    is the result of [model.generate], has at most 1024 tokens provided the
    generation capability honours [max_length] and every [max_length] is at
    most 1024 (the default 1000 is). *)
Theorem window_bound_after_each_call (g : Rng T)
    (done rest : list (string * option Z)) (replies : list string)
    (w_end : world T) :
  Forall (fun turn => Py.len (new_input T (fst turn)) < 1024) done ->
  respond_all T (done ++ rest) (fresh T g) = (Returned replies, w_end) ->
  exists replies' w',
    respond_all T done (fresh T g) = (Returned replies', w') /\
    (forall inputs kw,
        In (Call_generate inputs kw) (calls w') -> Py.len inputs <= 1024) /\
    (honours_max_length T ->
     Forall (fun turn => max_length (kwargs T (snd turn)) <= 1024) done ->
     forall stored,
       chat_history_ids (self w') = Some stored -> Py.len stored <= 1024).
Proof.
  intros Hshort Hrun.
  destruct (respond_all_prefix _ _ _ _ _ Hrun) as (replies' & w' & Hdone).
  exists replies', w'. split; [exact Hdone |].
  destruct (respond_all_window 1024 done (fresh T g) w' replies' eq_refl Hshort Hdone)
    as (Hins & Hst).
  split.
  - apply Hins. intros inputs kw [].
  - intros Hhonours Hmax. apply Hst; auto.
    intros stored Hnone. discriminate.
Qed.

End Sessions.

(** ** The claims about one call *)

Section Calls.

Context (T : Transformers).

Lemma with_own_history (a : AIChat) : with_history a (chat_history_ids a) = a.
Proof. destruct a. reflexivity. Qed.

(** Without overflow the history is concatenated as it is. *)
Lemma kept_history_fits (limit : Z) (history inputs : tensor) :
  Py.len history + Py.len inputs <= limit ->
  kept_history limit history inputs = history.
Proof.
  intros Hfits. unfold kept_history.
  destruct (Z.gtb_spec (Py.len history + Py.len inputs) limit); [lia | reflexivity].
Qed.

(** C2, as the code has it.  When [model.generate] raises, the call of
    [generate_response] raises the same exception.  The object is then as
    it was before the call if there was no history or the history and the
    new input fit the limit together; if they did not fit (and the new input
    alone is shorter than the limit), the object holds the trimmed history:
    the last [max_history_tokens - len(inputs)] tokens of the prior one. *)
Theorem failed_generation_keeps_trimmed_history (user_input : string)
    (requested : option Z) (w : world T) (e : Exn T) (g : Rng T) :
  generate T (model_input T (self w) user_input) (kwargs T requested)
           (torch_rng w) = (Raised e, g) ->
  exists w',
    generate_response T user_input requested w = (Raised e, w') /\
    (chat_history_ids (self w) = None -> self w' = self w) /\
    (forall history,
        chat_history_ids (self w) = Some history ->
        (Py.len history + Py.len (new_input T user_input)
           <= max_history_tokens (self w) ->
         self w' = self w) /\
        (Py.len history + Py.len (new_input T user_input)
           > max_history_tokens (self w) ->
         Py.len (new_input T user_input) < max_history_tokens (self w) ->
         self w' =
         with_history (self w)
           (Some (last_tokens
                    (Z.to_nat (max_history_tokens (self w)
                               - Py.len (new_input T user_input)))
                    history)))).
Proof.
  intros Hgen.
  exists (world_after_failure T w user_input requested g).
  split; [rewrite generate_response_run, Hgen; reflexivity |].
  cbn [world_after_failure self]. unfold history_at_generate.
  split.
  - intros Hnone. rewrite Hnone. rewrite <- Hnone. apply with_own_history.
  - intros history Hsome. rewrite Hsome. split.
    + intros Hfits. rewrite kept_history_fits by assumption.
      rewrite <- Hsome. apply with_own_history.
    + intros _ Hshort. rewrite kept_history_recent by assumption. reflexivity.
Qed.

(** C4, as the code has it.  After a call that returns, the stored history
    is the whole result of [model.generate]: the model input followed by
    the continuation.  After a second call that returns, whose encoded new
    input is shorter than the limit, the stored history is the last
    [max_history_tokens - len(inputs)] tokens of the first stored history
    (all of it when it has no more), then the new input, then the new
    continuation; what is kept of a first history that is not empty is not
    empty. *)
Theorem second_call_extends_first (user_input1 user_input2 : string)
    (requested1 requested2 : option Z) (w w1 w2 : world T)
    (reply1 reply2 : string) :
  echoes_input T ->
  generate_response T user_input1 requested1 w = (Returned reply1, w1) ->
  generate_response T user_input2 requested2 w1 = (Returned reply2, w2) ->
  Py.len (new_input T user_input2) < max_history_tokens (self w) ->
  exists first continuation1 continuation2,
    generate T (model_input T (self w) user_input1) (kwargs T requested1)
             (torch_rng w) = (Returned first, torch_rng w1) /\
    first = model_input T (self w) user_input1 ++ continuation1 /\
    chat_history_ids (self w1) = Some first /\
    chat_history_ids (self w2) =
      Some (last_tokens
              (Z.to_nat (max_history_tokens (self w)
                         - Py.len (new_input T user_input2)))
              first
            ++ new_input T user_input2 ++ continuation2) /\
    (first <> [] ->
     last_tokens
       (Z.to_nat (max_history_tokens (self w) - Py.len (new_input T user_input2)))
       first <> []).
Proof.
  intros Hecho Hone Htwo Hshort.
  apply generate_response_returned in Hone as (first & Hgen1 & _ & Hw1).
  apply generate_response_returned in Htwo as (second & Hgen2 & _ & Hw2).
  destruct (Hecho _ _ _ _ _ Hgen1) as (continuation1 & Hfirst).
  destruct (Hecho _ _ _ _ _ Hgen2) as (continuation2 & Hsecond).
  exists first, continuation1, continuation2.
  split; [exact Hgen1 | split; [exact Hfirst |]].
  assert (Hstored : chat_history_ids (self w1) = Some first)
    by (rewrite Hw1; reflexivity).
  assert (Hlimit : max_history_tokens (self w1) = max_history_tokens (self w))
    by (rewrite Hw1; reflexivity).
  split; [exact Hstored | split].
  - rewrite Hw2. cbn [world_after_success self with_history chat_history_ids].
    rewrite Hsecond. unfold model_input, history_at_generate.
    rewrite Hstored, Hlimit.
    rewrite kept_history_recent by assumption.
    rewrite <- app_assoc. reflexivity.
  - intros Hne Hnil.
    apply (f_equal (@List.length token)) in Hnil.
    rewrite length_last_tokens in Hnil. cbn [List.length] in Hnil.
    destruct first as [| t first']; [congruence |].
    cbn [List.length] in Hnil. unfold Py.len in *. lia.
Qed.

(** C5.  The reply of a call that returns is the decoding, with
    [skip_special_tokens=True], of the slice of the generation result that
    starts at index [len(model_input)], where [model_input] is the tensor
    that was passed to [model.generate]; when the result starts with the
    model input, that slice is the continuation alone. *)
Theorem reply_decodes_result_past_model_input (user_input : string)
    (requested : option Z) (w w' : world T) (reply : string) :
  generate_response T user_input requested w = (Returned reply, w') ->
  exists result,
    generate T (model_input T (self w) user_input) (kwargs T requested)
             (torch_rng w) = (Returned result, torch_rng w') /\
    calls w' =
      calls w ++
      [Call_encode (prompt user_input) true;
       Call_generate (model_input T (self w) user_input) (kwargs T requested);
       Call_decode
         (Py.slice_from (Py.len (model_input T (self w) user_input)) result)
         true] /\
    reply =
      decode T
        (Py.slice_from (Py.len (model_input T (self w) user_input)) result)
        true /\
    Py.slice_from (Py.len (model_input T (self w) user_input)) result =
      skipn (List.length (model_input T (self w) user_input)) result /\
    (forall continuation,
        result = model_input T (self w) user_input ++ continuation ->
        reply = decode T continuation true).
Proof.
  intros Hrun.
  apply generate_response_returned in Hrun as (result & Hgen & Hreply & Hw').
  assert (Hslice :
    Py.slice_from (Py.len (model_input T (self w) user_input)) result =
    skipn (List.length (model_input T (self w) user_input)) result).
  { rewrite slice_from_nonneg by apply len_nonneg.
    unfold Py.len. rewrite Nat2Z.id. reflexivity. }
  exists result. rewrite Hslice.
  split; [exact Hgen | split; [rewrite Hw'; reflexivity |]].
  split; [exact Hreply | split; [reflexivity |]].
  intros continuation Hresult. rewrite Hreply, Hresult.
  rewrite skipn_app, skipn_all, Nat.sub_diag. reflexivity.
Qed.

End Calls.

(** ** Reset, sampling arguments, over-long inputs, unvalidated text *)

Section Edges.

Context (T : Transformers).

Lemma reset_times_cleared (n : nat) (g : Rng T) (cs : list call) :
  reset_times T n {| self := init; torch_rng := g; calls := cs |} =
  {| self := init; torch_rng := g; calls := cs |}.
Proof. induction n as [| n IH]; [reflexivity | exact IH]. Qed.

(** C6.  [reset_chat] sets the history to [None] and touches nothing else;
    one call or more in a row leave the object as [__init__] made it; and
    [generate_response] after them runs as on a new object: its model input
    is the encoded new input alone. *)
Theorem reset_chat_clears_and_starts_over (history : option tensor)
    (g : Rng T) (cs : list call) (n : nat) (user_input : string)
    (requested : option Z) :
  let w : world T :=
    {| self := {| chat_history_ids := history; max_history_tokens := 1024 |};
       torch_rng := g; calls := cs |} in
  let cleared : world T := {| self := init; torch_rng := g; calls := cs |} in
  reset_chat T w = (Returned tt, cleared) /\
  reset_times T (S n) w = cleared /\
  generate_response T user_input requested (reset_times T (S n) w) =
    generate_response T user_input requested cleared /\
  model_input T (self cleared) user_input = new_input T user_input.
Proof.
  cbv zeta.
  assert (Hmany :
    reset_times T (S n)
      {| self := {| chat_history_ids := history; max_history_tokens := 1024 |};
         torch_rng := g; calls := cs |} =
    {| self := init; torch_rng := g; calls := cs |}).
  { cbn [reset_times]. apply reset_times_cleared. }
  split; [reflexivity | split; [exact Hmany | split]].
  - rewrite Hmany. reflexivity.
  - reflexivity.
Qed.

(** C8.  Every call of [generate_response] calls [model.generate] exactly
    once, right after encoding, with [max_length] as given or 1000, and
    with temperature 0.85, top-k 50, top-p 0.92, repetition penalty 1.2,
    no-repeat n-gram size 2, minimum length 10, early stopping and one
    returned sequence. *)
Theorem generate_called_with_fixed_sampling (user_input : string)
    (requested : option Z) (w : world T) :
  exists inputs rest,
    calls (snd (generate_response T user_input requested w)) =
      calls w ++
      Call_encode (prompt user_input) true ::
      Call_generate inputs
        {| max_length := match requested with Some n => n | None => 1000 end;
           pad_token_id := eos_token_id T;
           no_repeat_ngram_size := 2;
           do_sample := true;
           top_k := 50;
           top_p := 0.92;
           temperature := 0.85;
           min_length := 10;
           repetition_penalty := 1.2;
           length_penalty := 1.0;
           early_stopping := true;
           num_return_sequences := 1 |} ::
      rest /\
    (forall inputs' kw, ~ In (Call_generate inputs' kw) rest).
Proof.
  rewrite generate_response_run.
  exists (model_input T (self w) user_input).
  destruct (generate T _ _ _) as [[result | e] g].
  - eexists. split; [reflexivity |].
    intros inputs' kw [Hdec | []]. discriminate.
  - exists []. split; [reflexivity |]. intros inputs' kw [].
Qed.


(** C10.  Whatever the text, the empty one included, [generate_response]
    encodes ["User: " + user_input + "\nAssistant:"], calls [model.generate]
    on the kept history followed by that encoding, and raises only what
    [model.generate] raises. *)
Theorem user_input_is_not_validated (user_input : string)
    (requested : option Z) (w : world T) :
  let text := ("User: " ++ user_input ++ Py.newline ++ "Assistant:")%string in
  let inputs := encode T text true in
  prompt EmptyString = ("User: " ++ Py.newline ++ "Assistant:")%string /\
  exists kept,
    (chat_history_ids (self w) = None -> kept = []) /\
    match generate T (kept ++ inputs) (kwargs T requested) (torch_rng w) with
    | (Returned result, g) =>
        exists w',
          generate_response T user_input requested w =
            (Returned (decode T (Py.slice_from (Py.len (kept ++ inputs)) result) true),
             w') /\
          calls w' =
            calls w ++
            [Call_encode text true;
             Call_generate (kept ++ inputs) (kwargs T requested);
             Call_decode (Py.slice_from (Py.len (kept ++ inputs)) result) true]
    | (Raised e, g) =>
        exists w',
          generate_response T user_input requested w = (Raised e, w') /\
          calls w' =
            calls w ++
            [Call_encode text true;
             Call_generate (kept ++ inputs) (kwargs T requested)]
    end.
Proof.
  cbv zeta. split; [reflexivity |].
  fold (prompt user_input). fold (new_input T user_input).
  set (kept := match history_at_generate T (self w) user_input with
               | Some kept => kept
               | None => []
               end).
  assert (Hmodel : model_input T (self w) user_input = kept ++ new_input T user_input).
  { unfold model_input, kept.
    destruct (history_at_generate T (self w) user_input); reflexivity. }
  exists kept. split.
  - unfold kept, history_at_generate. intros Hnone. rewrite Hnone. reflexivity.
  - rewrite generate_response_run, Hmodel.
    destruct (generate T _ _ _) as [[result | e] g].
    + rewrite slice_from_nonneg by apply len_nonneg.
      unfold Py.len. rewrite Nat2Z.id.
      exists (world_after_success T w user_input requested g result).
      split; [reflexivity |].
      cbn [world_after_success calls]. rewrite Hmodel. reflexivity.
    + exists (world_after_failure T w user_input requested g).
      split; [reflexivity |].
      cbn [world_after_failure calls]. rewrite Hmodel. reflexivity.
Qed.

End Edges.

(** ** When the history changes

    With a new input shorter than the limit, the history is modified
    exactly when it overflows together with the new input, and what is kept
    is then its last [limit - len(inputs)] tokens. *)

Lemma kept_history_changes_iff (limit : Z) (history inputs : tensor) :
  Py.len inputs < limit ->
  kept_history limit history inputs <> history <->
  Py.len history + Py.len inputs > limit.
Proof.
  intros Hshort. split.
  - intros Hchanged.
    destruct (Z_le_gt_dec (Py.len history + Py.len inputs) limit) as [Hfits | Hover];
      [| exact Hover].
    elim Hchanged. now apply kept_history_fits.
  - intros Hover Hsame.
    apply (f_equal (@List.length token)) in Hsame.
    rewrite kept_history_recent in Hsame by assumption.
    rewrite length_last_tokens in Hsame. unfold Py.len in *. lia.
Qed.

(** ** The claims at concrete inputs *)

Section Concrete.

Import Demo Runs.

(** The concrete model keeps the two promises. *)
Lemma scripted_echoes_input (min_new : nat) : echoes_input (transformers min_new).
Proof.
  intros inputs kw g result g'. cbn [generate transformers].
  destruct g as [| [continuation | message] rest]; cbn [scripted_generate];
    intros H; inversion H; subst.
  eexists. reflexivity.
Qed.

Lemma strict_honours_max_length : honours_max_length strict.
Proof.
  intros inputs kw g result g'. cbn [generate strict transformers].
  destruct g as [| [continuation | message] rest]; cbn [scripted_generate];
    intros H; inversion H; subst.
  rewrite len_app. unfold Py.len at 2. rewrite length_firstn.
  pose proof (len_nonneg inputs). cbn [Nat.max]. lia.
Qed.

(** Python's slices on a short list. *)
Example slice_from_examples :
  Py.slice_from (-2) [1; 2; 3] = [2; 3] /\
  Py.slice_from (-0) [1; 2; 3] = [1; 2; 3] /\
  Py.slice_from (-5) [1; 2; 3] = [1; 2; 3] /\
  Py.slice_from 2 [1; 2; 3] = [3] /\
  Py.slice_from 5 [1; 2; 3] = [].
Proof. repeat split; reflexivity. Qed.

(** A limit of 20, a history of 18 tokens and a new input of 5: the first
    3 tokens go, 15 stay, and the model input has 20 tokens. *)
Example window_of_twenty :
  let history := map Z.of_nat (seq 1 18) in
  let inputs := [101; 102; 103; 104; 105] in
  kept_history 20 history inputs = map Z.of_nat (seq 4 15) /\
  Py.len (kept_history 20 history inputs ++ inputs) = 20.
Proof. split; reflexivity. Qed.

(** The first message of a conversation is encoded and passed on as it is;
    the reply is what follows it in the result. *)
Example first_turn_hello :
  generate_response legacy "Hello"%string None (fresh legacy two_samples) =
  (Returned "!"%string,
   {| self := {| chat_history_ids := Some hello_history;
                 max_history_tokens := 1024 |};
      torch_rng := ([Sample [33]] : Rng legacy);
      calls := [Call_encode (prompt "Hello"%string) true;
                Call_generate (new_input legacy "Hello"%string) (kwargs legacy None);
                Call_decode [33] true] |}).
Proof. vm_compute. reflexivity. Qed.

(** A caller may ask for more than the window holds: with [max_length=1100]
    and a sampler that stops there, the first call already stores 1100
    tokens. *)
Lemma requested_length_exceeds_window :
  exists reply w' stored,
    generate_response strict "Hello"%string (Some 1100)
      (fresh strict [Sample (repeat 33 1100)]) = (Returned reply, w') /\
    chat_history_ids (self w') = Some stored /\
    Py.len stored = 1100.
Proof.
  do 3 eexists. split; [vm_compute; reflexivity |].
  split; [reflexivity | vm_compute; reflexivity].
Qed.

(** C1 fails.  A first message of 990 letters and its reply are stored as
    1008 tokens.  For the second message ["Hi"] (19 tokens) the history is
    trimmed to its last 1005 tokens, the model input has 1024 tokens, and
    the result stored has one token more: 1025. *)
Lemma stored_history_exceeds_window :
  exists replies w' stored,
    respond_all legacy long_then_short (fresh legacy two_samples)
      = (Returned replies, w') /\
    chat_history_ids (self w') = Some stored /\
    Py.len stored = 1025 /\
    max_history_tokens (self w') = 1024.
Proof.
  do 3 eexists. split; [vm_compute; reflexivity |].
  split; [reflexivity |]. split; vm_compute; reflexivity.
Qed.

(** The bound at work: with the sampler that stops at [max_length] the
    same two messages stay inside the window, the second after trimming. *)
Lemma window_bound_after_each_call_witness :
  exists replies' w',
    respond_all strict long_then_short (fresh strict two_samples)
      = (Returned replies', w') /\
    (forall inputs kw,
        In (Call_generate inputs kw) (calls w') -> Py.len inputs <= 1024) /\
    (forall stored,
        chat_history_ids (self w') = Some stored -> Py.len stored <= 1024).
Proof.
  edestruct (window_bound_after_each_call strict two_samples long_then_short [])
    as (replies' & w' & Hdone & Hinputs & Hstored).
  - repeat constructor; vm_compute; reflexivity.
  - vm_compute. reflexivity.
  - exists replies', w'. split; [exact Hdone | split; [exact Hinputs |]].
    apply Hstored; [exact strict_honours_max_length |].
    repeat constructor; vm_compute; discriminate.
Defined.

(** C2 fails.  After the long first message 1008 tokens are stored.  The
    call for ["Hi"] trims them to the last 1005 and then [model.generate]
    raises: the object is left with the 1005 tokens. *)
Lemma failed_generation_leaves_history_trimmed :
  exists w' after,
    chat_history_ids (self after_long_message) = Some long_history /\
    generate_response legacy "Hi"%string None after_long_message
      = (Raised "CUDA out of memory"%string, w') /\
    chat_history_ids (self w') = Some after /\
    Py.len long_history = 1008 /\
    Py.len after = 1005.
Proof.
  do 2 eexists. split; [vm_compute; reflexivity |].
  split; [vm_compute; reflexivity |].
  split; [reflexivity |]. split; vm_compute; reflexivity.
Qed.

(** The failure after trimming, as the corrected statement describes it. *)
Lemma failed_generation_keeps_trimmed_history_witness :
  generate legacy (model_input legacy (self after_long_message) "Hi"%string)
           (kwargs legacy None) (torch_rng after_long_message)
    = (Raised "CUDA out of memory"%string, []) /\
  exists w',
    generate_response legacy "Hi"%string None after_long_message
      = (Raised "CUDA out of memory"%string, w') /\
    self w' =
      with_history (self after_long_message)
        (Some (last_tokens 1005 long_history)).
Proof.
  assert (Hgen :
    generate legacy (model_input legacy (self after_long_message) "Hi"%string)
             (kwargs legacy None) (torch_rng after_long_message)
      = (Raised "CUDA out of memory"%string, []))
    by (vm_compute; reflexivity).
  split; [exact Hgen |].
  destruct (failed_generation_keeps_trimmed_history legacy "Hi"%string None
              after_long_message "CUDA out of memory"%string [] Hgen)
    as (w' & Hrun & _ & Hsome).
  exists w'. split; [exact Hrun |].
  assert (Hhist : chat_history_ids (self after_long_message) = Some long_history)
    by (vm_compute; reflexivity).
  destruct (Hsome long_history Hhist) as [_ Htrim].
  apply Htrim; vm_compute; reflexivity.
Defined.

(** C3 at a failing input.  After ["Hello"] 23 tokens are stored.  A
    next message of 1007 letters is encoded as 1024 tokens: history and
    input overflow the limit, [history_to_keep] is 0, and the slice leaves
    the 23 tokens in place where the last 0 of them were to be kept. *)
Theorem full_window_input_keeps_whole_history :
  chat_history_ids (self after_hello) = Some hello_history /\
  Py.len hello_history = 23 /\
  Py.len (new_input legacy (letters 1007)) = 1024 /\
  max_history_tokens (self after_hello) = 1024 /\
  history_at_generate legacy (self after_hello) (letters 1007)
    = Some hello_history /\
  last_tokens (Z.to_nat (1024 - 1024)) hello_history = [] /\
  exists rest,
    calls (snd (generate_response legacy (letters 1007) None after_hello)) =
      calls after_hello ++
      Call_encode (prompt (letters 1007)) true ::
      Call_generate (hello_history ++ new_input legacy (letters 1007))
                    (kwargs legacy None) :: rest.
Proof.
  repeat (split; [vm_compute; reflexivity |]).
  eexists. vm_compute. reflexivity.
Qed.

(** C4 fails.  After the empty message 18 tokens are stored.  A second
    message of 1025 letters is encoded as 1042 tokens, [history_to_keep] is
    -18, the slice drops all 18 tokens, and the second stored history is
    the new input and its continuation: nothing of the first is in it. *)
Lemma long_second_message_discards_first_history :
  exists reply1 w1 first reply2 w2,
    generate_response legacy ""%string None (fresh legacy two_samples)
      = (Returned reply1, w1) /\
    chat_history_ids (self w1) = Some first /\
    Py.len first = 18 /\
    generate_response legacy (letters 1025) None w1 = (Returned reply2, w2) /\
    history_at_generate legacy (self w1) (letters 1025) = Some [] /\
    chat_history_ids (self w2) = Some (new_input legacy (letters 1025) ++ [33]).
Proof.
  do 5 eexists. split; [vm_compute; reflexivity |].
  split; [reflexivity |].
  repeat (split; [vm_compute; reflexivity |]).
  vm_compute. reflexivity.
Qed.

(** Two calls that return, the second after trimming: 1005 tokens of the
    first stored history open the second. *)
Lemma second_call_extends_first_witness :
  generate_response legacy (letters 990) None (fresh legacy two_samples)
    = (Returned "!"%string, after_long_reply) /\
  generate_response legacy "Hi"%string None after_long_reply
    = (Returned "!"%string, after_long_and_hi) /\
  Py.len (new_input legacy "Hi"%string)
    < max_history_tokens (self (fresh legacy two_samples)) /\
  exists continuation2,
    chat_history_ids (self after_long_reply) = Some long_history /\
    chat_history_ids (self after_long_and_hi) =
      Some (last_tokens 1005 long_history ++ new_input legacy "Hi"%string
            ++ continuation2) /\
    last_tokens 1005 long_history <> [].
Proof.
  assert (Hone :
    generate_response legacy (letters 990) None (fresh legacy two_samples)
      = (Returned "!"%string, after_long_reply)) by (vm_compute; reflexivity).
  assert (Htwo :
    generate_response legacy "Hi"%string None after_long_reply
      = (Returned "!"%string, after_long_and_hi)) by (vm_compute; reflexivity).
  assert (Hshort :
    Py.len (new_input legacy "Hi"%string)
      < max_history_tokens (self (fresh legacy two_samples)))
    by (vm_compute; reflexivity).
  destruct (second_call_extends_first legacy _ _ _ _ _ _ _ _ _
              (scripted_echoes_input 1) Hone Htwo Hshort)
    as (first & continuation1 & continuation2 & _ & _ & Hstored1 & Hstored2 & Hkept).
  assert (Hlong : chat_history_ids (self after_long_reply) = Some long_history)
    by (vm_compute; reflexivity).
  assert (Hfirst : first = long_history) by congruence.
  subst first.
  split; [exact Hone |]. split; [exact Htwo |]. split; [exact Hshort |].
  exists continuation2. split; [exact Hlong |]. split; [exact Hstored2 |].
  apply Hkept. discriminate.
Defined.

(** The reply to ["Hello"] is the decoding of the one new token. *)
Lemma reply_decodes_result_past_model_input_witness :
  generate_response legacy "Hello"%string None (fresh legacy two_samples)
    = (Returned "!"%string, after_hello) /\
  exists result,
    generate legacy (new_input legacy "Hello"%string) (kwargs legacy None) two_samples
      = (Returned result, [Sample [33]]) /\
    "!"%string = decode legacy (skipn 22 result) true /\
    (result = new_input legacy "Hello"%string ++ [33] -> "!"%string = decode legacy [33] true).
Proof.
  assert (Hrun :
    generate_response legacy "Hello"%string None (fresh legacy two_samples)
      = (Returned "!"%string, after_hello)) by (vm_compute; reflexivity).
  split; [exact Hrun |].
  destruct (reply_decodes_result_past_model_input legacy "Hello"%string None
              (fresh legacy two_samples) after_hello "!"%string Hrun)
    as (result & Hgen & _ & Hreply & Hslice & Hcontinuation).
  exists result. split; [exact Hgen |]. split.
  - rewrite Hslice in Hreply. exact Hreply.
  - apply Hcontinuation.
Defined.

(** C7 at a failing input.  With 1008 tokens stored and a next message
    encoded as 1024 tokens, history and input overflow the limit, yet the
    history that is concatenated, and that the object holds when
    [model.generate] then raises, is the prior history unmodified. *)
Theorem overflowing_history_left_unmodified :
  chat_history_ids (self after_long_message) = Some long_history /\
  (Py.len long_history + Py.len (new_input legacy (letters 1007))
     >? max_history_tokens (self after_long_message)) = true /\
  history_at_generate legacy (self after_long_message) (letters 1007)
    = Some long_history /\
  model_input legacy (self after_long_message) (letters 1007)
    = long_history ++ new_input legacy (letters 1007) /\
  exists w',
    generate_response legacy (letters 1007) None after_long_message
      = (Raised "CUDA out of memory"%string, w') /\
    self w' = self after_long_message.
Proof.
  repeat (split; [vm_compute; reflexivity |]).
  eexists. split; vm_compute; reflexivity.
Qed.



End Concrete.

(** ** More about the methods *)

Section Methods.

Context (T : Transformers).

Lemma last_tokens_suffix {A : Type} (k : nat) (l : list A) :
  exists n, (n <= List.length l)%nat /\ last_tokens k l = skipn n l.
Proof. exists (List.length l - k)%nat. split; [lia | reflexivity]. Qed.

(** Whatever the lengths, what is kept of the history is the history
    without some of its first tokens. *)
Lemma kept_history_suffix (limit : Z) (history inputs : tensor) :
  exists n,
    (n <= List.length history)%nat /\
    kept_history limit history inputs = skipn n history.
Proof.
  unfold kept_history.
  destruct (Py.len history + Py.len inputs >? limit).
  - unfold Py.slice_from.
    destruct (Z.ltb_spec (- (limit - Py.len inputs)) 0).
    + exists (Z.to_nat (Z.max (- (limit - Py.len inputs) + Py.len history) 0)).
      split; [unfold Py.len in *; lia | reflexivity].
    + exists (Z.to_nat (Z.min (- (limit - Py.len inputs)) (Py.len history))).
      split; [unfold Py.len in *; lia | reflexivity].
  - exists 0%nat. split; [lia | reflexivity].
Qed.

(** [generate_response] drops history tokens from the front only: for any
    history, limit and text, the tensor passed to [model.generate] is the
    history without some of its first tokens, followed by the whole encoded
    new input. *)
Theorem trimming_drops_oldest_tokens_only (history : tensor) (limit : Z)
    (g : Rng T) (cs : list call) (user_input : string) (requested : option Z) :
  let w : world T :=
    {| self := {| chat_history_ids := Some history; max_history_tokens := limit |};
       torch_rng := g; calls := cs |} in
  exists n rest,
    (n <= List.length history)%nat /\
    calls (snd (generate_response T user_input requested w)) =
      cs ++
      Call_encode (prompt user_input) true ::
      Call_generate (skipn n history ++ new_input T user_input)
                    (kwargs T requested) :: rest.
Proof.
  cbv zeta.
  destruct (kept_history_suffix limit history (new_input T user_input))
    as (n & Hn & Hkept).
  exists n. rewrite generate_response_run.
  unfold model_input, history_at_generate.
  cbn [self chat_history_ids max_history_tokens torch_rng].
  rewrite Hkept.
  destruct (generate T _ _ _) as [[result | e] g']; eexists;
    (split; [exact Hn |]); cbn; unfold model_input, history_at_generate;
    cbn [chat_history_ids max_history_tokens]; rewrite Hkept; reflexivity.
Qed.

(** When history and new input overflow the limit and the new input alone
    is shorter than the limit, the tensor passed to [model.generate] has
    exactly [max_history_tokens] tokens. *)
Theorem trimmed_model_input_fills_window (user_input : string)
    (w : world T) (history : tensor) :
  chat_history_ids (self w) = Some history ->
  Py.len history + Py.len (new_input T user_input) > max_history_tokens (self w) ->
  Py.len (new_input T user_input) < max_history_tokens (self w) ->
  Py.len (model_input T (self w) user_input) = max_history_tokens (self w) /\
  forall requested,
    In (Call_generate (model_input T (self w) user_input) (kwargs T requested))
       (calls (snd (generate_response T user_input requested w))).
Proof.
  intros Hsome Hover Hshort. split.
  - unfold model_input, history_at_generate. rewrite Hsome.
    rewrite kept_history_recent by assumption.
    rewrite len_app. unfold Py.len at 1. rewrite length_last_tokens.
    unfold Py.len in *. lia.
  - intros requested. rewrite generate_response_run.
    destruct (generate T _ _ _) as [[result | e] g']; cbn;
      rewrite in_app_iff; right; cbn; auto.
Qed.

(** Trimming twice for the same new input is trimming once, when the new
    input has at most [limit] tokens. *)
Lemma kept_history_idempotent (limit : Z) (history inputs : tensor) :
  Py.len inputs <= limit ->
  kept_history limit (kept_history limit history inputs) inputs =
  kept_history limit history inputs.
Proof.
  intros Hle.
  destruct (Z.eq_dec (Py.len inputs) limit) as [Heq | Hneq].
  - assert (Hsame : forall h : tensor, kept_history limit h inputs = h).
    { intros h. unfold kept_history.
      destruct (Py.len h + Py.len inputs >? limit); [| reflexivity].
      replace (limit - Py.len inputs) with 0 by lia. apply slice_from_zero. }
    now rewrite !Hsame.
  - assert (Hshort : Py.len inputs < limit) by lia.
    rewrite !kept_history_recent by assumption.
    apply last_tokens_all. rewrite length_last_tokens. lia.
Qed.

(** After a call in which [model.generate] raised, a second call with the
    same text (of at most [max_history_tokens] encoded tokens) trims
    nothing more and passes the same tensor to [model.generate] as the
    failed call did. *)
Theorem retry_after_failure_sends_same_input (user_input : string)
    (requested retried : option Z) (w w' : world T) (e : Exn T) :
  generate_response T user_input requested w = (Raised e, w') ->
  Py.len (new_input T user_input) <= max_history_tokens (self w) ->
  history_at_generate T (self w') user_input = chat_history_ids (self w') /\
  model_input T (self w') user_input = model_input T (self w) user_input /\
  exists rest,
    calls (snd (generate_response T user_input retried w')) =
      calls w' ++
      Call_encode (prompt user_input) true ::
      Call_generate (model_input T (self w) user_input) (kwargs T retried) :: rest.
Proof.
  intros Hrun Hle.
  apply generate_response_raised in Hrun as (_ & Hw').
  assert (Hhist :
    history_at_generate T (self w') user_input = chat_history_ids (self w')).
  { rewrite Hw'. cbn [world_after_failure self].
    unfold history_at_generate, with_history.
    cbn [chat_history_ids max_history_tokens].
    destruct (chat_history_ids (self w)) as [history |]; [| reflexivity].
    now rewrite kept_history_idempotent. }
  assert (Hmodel :
    model_input T (self w') user_input = model_input T (self w) user_input).
  { unfold model_input at 1. rewrite Hhist.
    rewrite Hw'. cbn [world_after_failure self with_history chat_history_ids].
    reflexivity. }
  split; [exact Hhist | split; [exact Hmodel |]].
  rewrite generate_response_run, Hmodel.
  destruct (generate T _ _ _) as [[result | e'] g']; eexists; cbn;
    rewrite ?Hmodel; reflexivity.
Qed.

Lemma serve_keeps_window (r : request) (w : world T) :
  short_request T (max_history_tokens (self w)) r ->
  max_history_tokens (self (serve T r w)) = max_history_tokens (self w) /\
  (inputs_within T (max_history_tokens (self w)) w ->
   inputs_within T (max_history_tokens (self w)) (serve T r w)).
Proof.
  destruct r as [user_input requested |]; cbn [short_request serve].
  - intros Hshort.
    pose proof (model_input_fits T (self w) user_input Hshort) as Hfits.
    rewrite generate_response_run.
    destruct (generate T _ _ _) as [[result | e] g']; cbn [snd];
      (split; [reflexivity |]);
      intros Hinv inputs kw; cbn [world_after_success world_after_failure calls];
      rewrite in_app_iff; cbn [In];
      intros [Hold | Hnew]; eauto;
      repeat (destruct Hnew as [Hnew | Hnew]; try discriminate);
      try contradiction; inversion Hnew; subst; exact Hfits.
  - intros _. split; [reflexivity | auto].
Qed.

Lemma serve_all_keeps_window (limit : Z) (requests : list request) :
  forall w : world T,
    max_history_tokens (self w) = limit ->
    Forall (short_request T limit) requests ->
    inputs_within T limit w ->
    max_history_tokens (self (serve_all T requests w)) = limit /\
    inputs_within T limit (serve_all T requests w).
Proof.
  induction requests as [| r requests IH]; intros w Hlimit Hshort Hinv.
  - split; assumption.
  - inversion Hshort as [| ? ? Hhead Htail]; subst.
    destruct (serve_keeps_window r w Hhead) as (Hsame & Hstep).
    cbn [serve_all]. apply IH; [congruence | assumption | auto].
Qed.

(** On a new object, whatever sequence of [generate_response] and
    [reset_chat] calls is made and whichever of them raise, the limit stays
    1024 and every tensor passed to [model.generate] has at most 1024
    tokens, as long as every encoded new input is shorter than 1024
    tokens. *)
Theorem window_holds_across_failures_and_resets (g : Rng T)
    (requests : list request) :
  Forall (short_request T 1024) requests ->
  max_history_tokens (self (serve_all T requests (fresh T g))) = 1024 /\
  forall inputs kw,
    In (Call_generate inputs kw) (calls (serve_all T requests (fresh T g))) ->
    Py.len inputs <= 1024.
Proof.
  intros Hshort.
  apply (serve_all_keeps_window 1024 requests (fresh T g) eq_refl Hshort).
  intros inputs kw [].
Qed.

Lemma conversation_tokens_app (cs1 cs2 : list call) :
  conversation_tokens T (cs1 ++ cs2) =
  conversation_tokens T cs1 ++ conversation_tokens T cs2.
Proof. apply flat_map_app. Qed.

Lemma generate_response_recent (user_input : string) (requested : option Z)
    (w w' : world T) (reply : string) :
  echoes_input T ->
  recent_conversation T (max_history_tokens (self w)) w ->
  generate_response T user_input requested w = (Returned reply, w') ->
  max_history_tokens (self w') = max_history_tokens (self w) /\
  chat_history_ids (self w') <> None /\
  recent_conversation T (max_history_tokens (self w)) w'.
Proof.
  intros Hecho Hrecent Hrun.
  apply generate_response_returned in Hrun as (result & Hgen & _ & ->).
  destruct (Hecho _ _ _ _ _ Hgen) as (continuation & Hresult).
  split; [reflexivity | split; [discriminate |]].
  unfold recent_conversation in *.
  cbn [world_after_success self with_history chat_history_ids calls].
  rewrite conversation_tokens_app.
  cbn [conversation_tokens flat_map]. rewrite app_nil_r.
  fold (new_input T user_input).
  subst result.
  assert (Hcontinuation :
    skipn (List.length (model_input T (self w) user_input))
          (model_input T (self w) user_input ++ continuation) = continuation)
    by (rewrite skipn_app, skipn_all, Nat.sub_diag; reflexivity).
  rewrite Hcontinuation. cbn [app].
  set (conv := conversation_tokens T (calls w)) in *.
  unfold model_input, history_at_generate in *.
  destruct (chat_history_ids (self w)) as [history |].
  - destruct Hrecent as (n & Hn & Hhistory & Hwhole).
    destruct (kept_history_suffix (max_history_tokens (self w)) history
                (new_input T user_input)) as (j & Hj & Hkept).
    exists (j + n)%nat.
    assert (Hlen : List.length history = (List.length conv - n)%nat)
      by (rewrite Hhistory; apply length_skipn).
    split; [rewrite length_app; lia | split].
    + rewrite Hkept, Hhistory, skipn_skipn.
      rewrite skipn_app.
      replace (j + n - List.length conv)%nat with 0%nat by lia.
      cbn [skipn]. rewrite <- app_assoc. reflexivity.
    + intros Hfits. rewrite !len_app in Hfits.
      pose proof (len_nonneg (new_input T user_input)).
      pose proof (len_nonneg continuation).
      rewrite kept_history_fits; rewrite Hwhole by lia.
      * rewrite <- app_assoc. reflexivity.
      * lia.
  - rewrite Hrecent. exists 0%nat. cbn [app skipn].
    split; [lia | split; reflexivity].
Qed.

Lemma respond_all_recent (limit : Z) (turns : list (string * option Z)) :
  forall (w w' : world T) (replies : list string),
    echoes_input T ->
    max_history_tokens (self w) = limit ->
    recent_conversation T limit w ->
    respond_all T turns w = (Returned replies, w') ->
    recent_conversation T limit w' /\
    (turns <> [] -> chat_history_ids (self w') <> None).
Proof.
  induction turns as [| [user_input requested] turns IH];
    intros w w' replies Hecho Hlimit Hrecent Hrun.
  - cbn in Hrun. inversion Hrun; subst. split; [assumption | congruence].
  - apply respond_all_cons in Hrun as (reply & w1 & replies' & Hone & Hrest & _).
    rewrite <- Hlimit in Hrecent.
    destruct (generate_response_recent _ _ _ _ _ Hecho Hrecent Hone)
      as (Hsame & Hsome & Hrecent1).
    rewrite Hlimit in Hrecent1.
    destruct (IH w1 w' replies' Hecho (eq_trans Hsame Hlimit) Hrecent1 Hrest)
      as (Hrecent' & Hsome').
    split; [exact Hrecent' |]. intros _.
    destruct turns as [| turn turns'].
    + cbn in Hrest. inversion Hrest; subst. exact Hsome.
    + apply Hsome'. discriminate.
Qed.

(** With a generation capability that echoes its input, after one or more
    calls on a new object that all return, the stored history is the token
    stream of the conversation (every encoded input and every decoded
    continuation, in order) without some of its first tokens; it is the
    whole stream as long as the stream has at most 1024 tokens. *)
Theorem stored_history_is_recent_conversation (g : Rng T)
    (turns : list (string * option Z)) (replies : list string) (w' : world T) :
  echoes_input T ->
  turns <> [] ->
  respond_all T turns (fresh T g) = (Returned replies, w') ->
  exists stored n,
    chat_history_ids (self w') = Some stored /\
    (n <= List.length (conversation_tokens T (calls w')))%nat /\
    stored = skipn n (conversation_tokens T (calls w')) /\
    (Py.len (conversation_tokens T (calls w')) <= 1024 ->
     stored = conversation_tokens T (calls w')).
Proof.
  intros Hecho Hturns Hrun.
  destruct (respond_all_recent 1024 turns (fresh T g) w' replies Hecho
              eq_refl eq_refl Hrun) as (Hrecent & Hsome).
  specialize (Hsome Hturns). unfold recent_conversation in Hrecent.
  destruct (chat_history_ids (self w')) as [stored |]; [| congruence].
  destruct Hrecent as (n & Hn & Hstored & Hwhole).
  exists stored, n. auto.
Qed.

End Methods.

(** ** The run of the page script *)

Section PageRun.

Context (T : Transformers).

Lemma for_each_write (ms : list message) :
  forall s : browser_session T,
    for_each T ms (fun m => chat_message_write T (role m) (content m)) s =
    (Returned tt,
     {| session := session s; generator := generator s; made := made s;
        page := page s ++ ms |}).
Proof.
  induction ms as [| [r c] ms IH]; intros s.
  - cbn. rewrite app_nil_r. destruct s. reflexivity.
  - cbn [for_each]. unfold script_bind at 1. unfold chat_message_write at 1.
    rewrite IH. cbn [session generator made page role content].
    rewrite <- app_assoc. reflexivity.
Qed.

(** What one run of [main] does, by cases: loading fails; a text was
    submitted and [generate_response] returns or raises; no text. *)
Lemma main_run (v : visit T) (s : browser_session T) :
  main T v s =
  match chatbot (session s), from_pretrained T v with
  | None, Some e => (Raised (Model_exn e), s)
  | _, _ =>
      match submitted T v with
      | Some prompt =>
          match generate_response T prompt None
                  {| self := chatbot_of T s; torch_rng := generator s;
                     calls := made s |} with
          | (Returned response, w) =>
              after_reset_button T v
                {| session :=
                     {| chatbot := Some (self w);
                        messages :=
                          Some (messages_of T s ++
                                [{| role := "user"; content := prompt |};
                                 {| role := "assistant"; content := response |}]) |};
                   generator := torch_rng w; made := calls w;
                   page := page s ++ messages_of T s ++
                           [{| role := "user"; content := prompt |};
                            {| role := "assistant"; content := response |}] |}
          | (Raised e, w) =>
              (Raised (Model_exn e),
               {| session :=
                    {| chatbot := Some (self w);
                       messages :=
                         Some (messages_of T s ++
                               [{| role := "user"; content := prompt |}]) |};
                  generator := torch_rng w; made := calls w;
                  page := page s ++ messages_of T s ++
                          [{| role := "user"; content := prompt |}] |})
          end
      | None =>
          after_reset_button T v
            {| session := {| chatbot := Some (chatbot_of T s);
                             messages := Some (messages_of T s) |};
               generator := generator s; made := made s;
               page := page s ++ messages_of T s |}
      end
  end.
Proof.
  destruct s as [[bot ms] g cs pg].
  destruct v as [creativity length theme input reset loading].
  unfold main, initialize_session_state, submitted, chatbot_of, messages_of,
    after_reset_button.
  cbn [from_pretrained chat_input reset_chat_button session chatbot messages
       generator made page].
  unfold script_bind at 1 2. unfold session_has at 1.
  cbn [session chatbot].
  destruct bot as [bot |]; [| destruct loading as [e |]];
    cbn [new_AIChat script_bind script_raise script_ret set_chatbot];
    try reflexivity.
  all: unfold script_bind at 1; unfold session_has, set_messages, script_ret;
    cbn [session chatbot messages generator made page].
  all: destruct ms as [ms |];
    cbn [session chatbot messages generator made page].
  all: unfold script_bind at 1 2; unfold session_messages at 1;
    cbn [session chatbot messages generator made page];
    rewrite for_each_write;
    cbn [session chatbot messages generator made page].
  all: destruct input as [[| c text] |]; cbn [truthy].
  all: cbv beta iota zeta delta
         [script_bind script_ret messages_append session_messages set_messages
          chat_message_write chatbot_call reset_chat set_chat_history_ids
          with_history session chatbot messages generator made page
          self torch_rng calls].
  all: try (destruct (generate_response T _ _ _) as [[response | e'] w]).
  all: try (destruct reset).
  all: cbv beta iota zeta delta
         [session chatbot messages generator made page self torch_rng calls
          chat_history_ids max_history_tokens];
    rewrite <- ?app_assoc; cbn [app]; rewrite ?app_nil_r; reflexivity.
Qed.

(** A run of [main] never raises the [AttributeError] of a missing session
    key, whatever the session state holds when it starts: it returns, or it
    raises an exception of the library (from loading or from
    [generate_response]). *)
Theorem main_raises_only_library_exceptions (v : visit T) (s : browser_session T) :
  (exists b s', main T v s = (Returned b, s')) \/
  (exists e s', main T v s = (Raised (Model_exn e), s')).
Proof.
  rewrite main_run. unfold after_reset_button.
  destruct (chatbot (session s)), (from_pretrained T v), (submitted T v);
    try (destruct (generate_response T _ _ _) as [[response | e'] w]);
    try (destruct (reset_chat_button T v));
    eauto.
Qed.

(** The values of the two sliders and of the theme selector change nothing
    of a run, and every [model.generate] call a run makes has the keyword
    arguments of [generate_response]'s defaults: [max_length] 1000 and
    temperature 0.85. *)
Theorem sliders_and_theme_change_nothing (v : visit T) (s : browser_session T)
    (creativity : float) (length : Z) (theme : string) :
  main T {| response_creativity := creativity;
            maximum_response_length := length;
            select_theme := theme;
            chat_input := chat_input T v;
            reset_chat_button := reset_chat_button T v;
            from_pretrained := from_pretrained T v |} s
    = main T v s /\
  (forall inputs kw,
      In (Call_generate inputs kw) (made (snd (main T v s))) ->
      In (Call_generate inputs kw) (made s) \/
      (kw = kwargs T None /\ max_length kw = 1000 /\ temperature kw = 0.85%float)).
Proof.
  split; [rewrite !main_run; reflexivity |].
  intros inputs kw. rewrite main_run. unfold after_reset_button.
  destruct (chatbot (session s)), (from_pretrained T v), (submitted T v);
    try rewrite generate_response_run;
    try (destruct (generate T _ _ _) as [[result | e'] g']);
    try (destruct (reset_chat_button T v));
    cbn [snd made world_after_success world_after_failure calls];
    auto;
    rewrite in_app_iff; cbn [In];
    (intros [Hold | Hnew]; [left; exact Hold |]);
    repeat (destruct Hnew as [Hnew | Hnew]; try discriminate);
    try contradiction; inversion Hnew; subst; right; repeat split.
Qed.

Lemma submitted_some (v : visit T) (prompt : string) :
  submitted T v = Some prompt ->
  chat_input T v = Some prompt /\ prompt <> EmptyString.
Proof.
  unfold submitted. destruct (chat_input T v) as [[| c text] |];
    cbn [truthy]; intros H; inversion H; subst.
  split; [reflexivity | discriminate].
Qed.

Lemma submitted_none (v : visit T) :
  chat_input T v = None \/ chat_input T v = Some EmptyString ->
  submitted T v = None.
Proof. unfold submitted. intros [-> | ->]; reflexivity. Qed.

(** When a run raises, either loading failed and the session state is as
    it was, or [generate_response] raised for the submitted text: then the
    text is already in [messages], as the last message and without a reply,
    it is on the page, and the chatbot is as the failed call left it. *)
Theorem failed_run_leaves_text_unanswered (v : visit T)
    (s s' : browser_session T) (e : script_exn T) :
  main T v s = (Raised e, s') ->
  (exists e',
      e = Model_exn e' /\ from_pretrained T v = Some e' /\
      chatbot (session s) = None /\ s' = s) \/
  (exists prompt w e',
      chat_input T v = Some prompt /\ prompt <> EmptyString /\
      generate_response T prompt None
        {| self := chatbot_of T s; torch_rng := generator s; calls := made s |}
        = (Raised e', w) /\
      e = Model_exn e' /\
      chatbot (session s') = Some (self w) /\
      messages (session s') =
        Some (messages_of T s ++ [{| role := "user"; content := prompt |}]) /\
      page s' =
        page s ++ messages_of T s ++ [{| role := "user"; content := prompt |}]).
Proof.
  rewrite main_run. unfold after_reset_button.
  destruct (chatbot (session s)) as [bot |] eqn:Hbot;
    destruct (from_pretrained T v) as [e0 |] eqn:Hload;
    destruct (submitted T v) as [prompt |] eqn:Hprompt;
    try (destruct (generate_response T _ _ _) as [[response | e'] w] eqn:Hrun);
    try (destruct (reset_chat_button T v));
    intros H; inversion H; subst; clear H;
    try (left; exists e0; auto; fail);
    right; apply submitted_some in Hprompt as (Hinput & Hne);
    exists prompt, w, e'; cbn [session chatbot messages page];
    repeat split; auto.
Qed.

(** A run that returns says whether the reset button was pressed; when it
    was, the run leaves an empty transcript and a chatbot without history
    (and with its limit unchanged). *)
Theorem reset_button_clears_transcript_and_history (v : visit T)
    (s s' : browser_session T) (b : bool) :
  main T v s = (Returned b, s') ->
  b = reset_chat_button T v /\
  (b = true ->
   exists bot,
     chatbot (session s') = Some bot /\
     chat_history_ids bot = None /\
     max_history_tokens bot = max_history_tokens (chatbot_of T s) /\
     messages (session s') = Some []).
Proof.
  rewrite main_run. unfold after_reset_button.
  destruct (chatbot (session s)) as [bot |];
    destruct (from_pretrained T v) as [e0 |];
    destruct (submitted T v) as [prompt |];
    try (destruct (generate_response T _ _ _) as [[response | e'] w] eqn:Hrun);
    try (apply generate_response_returned in Hrun as (result & _ & _ & ->));
    destruct (reset_chat_button T v);
    intros H; inversion H; subst; clear H;
    (split; [reflexivity |]); intros Hb; try discriminate;
    eexists; cbn [session chatbot messages];
    (split; [reflexivity |]); repeat split.
Qed.

(** When a run on a blank page returns without a reset, the chat messages
    written on the page are the messages of the session state, all of them
    and in their order. *)
Theorem page_shows_the_transcript (v : visit T) (s s' : browser_session T) :
  main T v (blank_page T s) = (Returned false, s') ->
  messages (session s') = Some (page s').
Proof.
  rewrite main_run. unfold after_reset_button, chatbot_of, messages_of, blank_page.
  cbn [session chatbot messages generator made page].
  destruct (chatbot (session s)) as [bot |];
    destruct (from_pretrained T v) as [e0 |];
    destruct (submitted T v) as [prompt |];
    try (destruct (generate_response T _ _ _) as [[response | e'] w]);
    destruct (reset_chat_button T v);
    intros H; inversion H; subst; clear H;
    cbn [session chatbot messages page app]; reflexivity.
Qed.

(** In a session that already holds its chatbot and its messages, a run
    without a submitted text (none, or the empty one) makes no external
    call and leaves the random generator alone; without the reset button it
    returns with the session state exactly as it found it, after writing
    the messages on the page. *)
Theorem run_without_text_calls_nothing (v : visit T) (s : browser_session T)
    (bot : AIChat) (ms : list message) :
  chatbot (session s) = Some bot ->
  messages (session s) = Some ms ->
  chat_input T v = None \/ chat_input T v = Some EmptyString ->
  made (snd (main T v s)) = made s /\
  generator (snd (main T v s)) = generator s /\
  (reset_chat_button T v = false ->
   main T v s =
   (Returned false,
    {| session := session s; generator := generator s; made := made s;
       page := page s ++ ms |})).
Proof.
  intros Hbot Hms Hinput. apply submitted_none in Hinput.
  rewrite main_run, Hbot, Hinput.
  unfold after_reset_button, chatbot_of, messages_of.
  cbn [session chatbot messages generator made page].
  rewrite Hbot, Hms.
  destruct (reset_chat_button T v); cbn [snd generator made];
    (split; [reflexivity | split; [reflexivity |]]); intros Hreset;
    [discriminate |].
  destruct (session s) as [cb mg]. cbn [chatbot messages] in Hbot, Hms.
  subst. reflexivity.
Qed.







End PageRun.

(** ** The further properties at concrete inputs *)

Section MoreConcrete.

Import Demo Runs Visits.

(** 1008 tokens stored and a new input of 19: 1005 tokens are kept and the
    model input has 1024. *)
Lemma trimmed_model_input_fills_window_witness :
  chat_history_ids (self after_long_reply) = Some long_history /\
  Py.len long_history + Py.len (new_input legacy "Hi"%string)
    > max_history_tokens (self after_long_reply) /\
  Py.len (new_input legacy "Hi"%string) < max_history_tokens (self after_long_reply) /\
  Py.len (model_input legacy (self after_long_reply) "Hi"%string) = 1024.
Proof.
  assert (Hsome : chat_history_ids (self after_long_reply) = Some long_history)
    by (vm_compute; reflexivity).
  assert (Hover :
    Py.len long_history + Py.len (new_input legacy "Hi"%string)
      > max_history_tokens (self after_long_reply))
    by (vm_compute; reflexivity).
  assert (Hshort :
    Py.len (new_input legacy "Hi"%string)
      < max_history_tokens (self after_long_reply))
    by (vm_compute; reflexivity).
  repeat (split; [assumption |]).
  exact (proj1 (trimmed_model_input_fills_window legacy "Hi"%string
                  after_long_reply long_history Hsome Hover Hshort)).
Defined.

(** The call for ["Hi"] fails after trimming; the retry sends the same
    1024 tokens. *)
Lemma retry_after_failure_sends_same_input_witness :
  generate_response legacy "Hi"%string None after_long_message
    = (Raised "CUDA out of memory"%string, after_failed_hi) /\
  Py.len (new_input legacy "Hi"%string)
    <= max_history_tokens (self after_long_message) /\
  model_input legacy (self after_failed_hi) "Hi"%string
    = model_input legacy (self after_long_message) "Hi"%string.
Proof.
  assert (Hrun :
    generate_response legacy "Hi"%string None after_long_message
      = (Raised "CUDA out of memory"%string, after_failed_hi))
    by (vm_compute; reflexivity).
  assert (Hle :
    Py.len (new_input legacy "Hi"%string)
      <= max_history_tokens (self after_long_message))
    by (vm_compute; discriminate).
  split; [exact Hrun | split; [exact Hle |]].
  exact (proj1 (proj2 (retry_after_failure_sends_same_input legacy "Hi"%string
                         None None after_long_message after_failed_hi
                         "CUDA out of memory"%string Hrun Hle))).
Defined.

(** A long message, a failed call, a reset and a new conversation. *)
Lemma window_holds_across_failures_and_resets_witness :
  Forall (short_request legacy 1024) with_a_fault /\
  max_history_tokens
    (self (serve_all legacy with_a_fault (fresh legacy faulty_draws))) = 1024 /\
  forall inputs kw,
    In (Call_generate inputs kw)
       (calls (serve_all legacy with_a_fault (fresh legacy faulty_draws))) ->
    Py.len inputs <= 1024.
Proof.
  assert (Hshort : Forall (short_request legacy 1024) with_a_fault).
  { repeat constructor; vm_compute; reflexivity. }
  split; [exact Hshort |].
  exact (window_holds_across_failures_and_resets legacy faulty_draws
           with_a_fault Hshort).
Defined.

(** After the long message and ["Hi"] the conversation has 1028 tokens and
    the stored history is its last 1025. *)
Lemma stored_history_is_recent_conversation_witness :
  respond_all legacy long_then_short (fresh legacy two_samples)
    = (Returned ["!"%string; "!"%string], after_long_and_hi) /\
  exists stored n,
    chat_history_ids (self after_long_and_hi) = Some stored /\
    (n <= List.length (conversation_tokens legacy (calls after_long_and_hi)))%nat /\
    stored = skipn n (conversation_tokens legacy (calls after_long_and_hi)) /\
    (Py.len (conversation_tokens legacy (calls after_long_and_hi)) <= 1024 ->
     stored = conversation_tokens legacy (calls after_long_and_hi)).
Proof.
  assert (Hrun :
    respond_all legacy long_then_short (fresh legacy two_samples)
      = (Returned ["!"%string; "!"%string], after_long_and_hi))
    by (vm_compute; reflexivity).
  split; [exact Hrun |].
  apply (stored_history_is_recent_conversation legacy two_samples
           long_then_short ["!"%string; "!"%string] after_long_and_hi
           (scripted_echoes_input 1)); [discriminate | exact Hrun].
Defined.

(** The run for ["Hi"] raises what [model.generate] raised; ["Hi"] is the
    last of the three messages. *)
Lemma failed_run_leaves_text_unanswered_witness :
  main legacy (ask "Hi") before_fault
    = (Raised (@Model_exn legacy "CUDA out of memory"%string), after_fault) /\
  messages (session after_fault) =
    Some (messages_of legacy before_fault
          ++ [{| role := "user"; content := "Hi" |}]).
Proof.
  assert (Hrun :
    main legacy (ask "Hi") before_fault
      = (Raised (@Model_exn legacy "CUDA out of memory"%string), after_fault))
    by (vm_compute; reflexivity).
  split; [exact Hrun |].
  destruct (failed_run_leaves_text_unanswered legacy _ _ _ _ Hrun)
    as [(e' & _ & Hload & _) | (prompt & w & e' & Hinput & _ & _ & _ & _ & Hms & _)].
  - discriminate Hload.
  - inversion Hinput; subst. exact Hms.
Defined.

(** The reset button after ["Hello"]. *)
Lemma reset_button_clears_transcript_and_history_witness :
  main legacy press_reset greeted
    = (Returned true, snd (main legacy press_reset greeted)) /\
  exists bot,
    chatbot (session (snd (main legacy press_reset greeted))) = Some bot /\
    chat_history_ids bot = None /\
    max_history_tokens bot = max_history_tokens (chatbot_of legacy greeted) /\
    messages (session (snd (main legacy press_reset greeted))) = Some [].
Proof.
  assert (Hrun :
    main legacy press_reset greeted
      = (Returned true, snd (main legacy press_reset greeted)))
    by (vm_compute; reflexivity).
  split; [exact Hrun |].
  exact (proj2 (reset_button_clears_transcript_and_history legacy _ _ _ _ Hrun)
               eq_refl).
Defined.

(** The first run of a session, with ["Hello"] submitted. *)
Lemma page_shows_the_transcript_witness :
  main legacy (ask "Hello") (blank_page legacy (new_session legacy two_samples))
    = (Returned false, greeted) /\
  messages (session greeted) = Some (page greeted).
Proof.
  assert (Hrun :
    main legacy (ask "Hello") (blank_page legacy (new_session legacy two_samples))
      = (Returned false, greeted))
    by (vm_compute; reflexivity).
  split; [exact Hrun |].
  exact (page_shows_the_transcript legacy _ _ _ Hrun).
Defined.

(** The empty text submitted after ["Hello"]. *)
Lemma run_without_text_calls_nothing_witness :
  chatbot (session greeted) = Some (self after_hello) /\
  messages (session greeted) = Some (transcript [("Hello", "!")%string]) /\
  chat_input legacy (ask "") = Some EmptyString /\
  main legacy (ask "") greeted =
  (Returned false,
   {| session := session greeted; generator := generator greeted;
      made := made greeted;
      page := page greeted ++ transcript [("Hello", "!")%string] |}).
Proof.
  assert (Hbot : chatbot (session greeted) = Some (self after_hello))
    by (vm_compute; reflexivity).
  assert (Hms :
    messages (session greeted) = Some (transcript [("Hello", "!")%string]))
    by (vm_compute; reflexivity).
  split; [exact Hbot |]. split; [exact Hms |]. split; [reflexivity |].
  destruct (run_without_text_calls_nothing legacy (ask "") greeted _ _
              Hbot Hms (or_intror eq_refl)) as (_ & _ & Hsame).
  apply Hsame. reflexivity.
Defined.


End MoreConcrete.
